(** * CurlShims: typed forwarders over libcurl's variadic entry points

    A shallow embedding of [CurlShims.c] / [include/CurlShims.h] from the
    PostKit repository.  Every function of the translation unit is a single
    [return curl_easy_setopt(curl, option, x);] or
    [return curl_easy_getinfo(curl, info, x);].

    The wrapped library (libcurl) is not part of the repository: its two
    variadic entry points are modelled as the effects a function body can
    emit, and their behaviour is a parameter of the semantics (an arbitrary
    relation, so the library may fail, be non-deterministic, or never
    return). *)

From Stdlib Require Import ZArith List String Bool Lia.
Import ListNotations.
Local Open Scope string_scope.
Local Open Scope list_scope.
Local Open Scope Z_scope.

(** ** C types that occur in the two source files *)

#[warnings="-register-all"]
Inductive ctype : Type :=
| Tvoid
| Tchar
| Tshort
| Tint
| Tlong
| Tsize_t
| Tdouble
| Tcurl_off_t                         (* typedef of <curl/system.h>, 64-bit *)
| TCURL                               (* typedef void CURL *)
| TCURLoption                         (* enum of <curl/curl.h> *)
| TCURLINFO                           (* enum of <curl/curl.h> *)
| TCURLcode                           (* enum of <curl/curl.h> *)
| Tconst (t : ctype)
| Tpointer (t : ctype)
| Tfunction (ret : ctype) (params : list ctype).

(** Pointer to [size_t f(char *ptr, size_t size, size_t nmemb, void *userdata)]. *)
Definition write_fn_t : ctype :=
  Tpointer (Tfunction Tsize_t [Tpointer Tchar; Tsize_t; Tsize_t; Tpointer Tvoid]).

(** Pointer to [int f(void *clientp, curl_off_t dltotal, curl_off_t dlnow,
    curl_off_t ultotal, curl_off_t ulnow)]. *)
Definition progress_fn_t : ctype :=
  Tpointer (Tfunction Tint
              [Tpointer Tvoid; Tcurl_off_t; Tcurl_off_t; Tcurl_off_t; Tcurl_off_t]).

(** ** Values

    Integers are carried as [Z]; no function of the unit does arithmetic, so
    the width of [long] and [curl_off_t] plays no role beyond the fact that
    the value received is the value passed on.  Pointers (to data and to
    functions) are addresses, [NULL] being 0.  No floating-point value is
    ever passed by value: [double] occurs only behind a pointer. *)

Definition long := Z.
Definition curl_off_t := Z.
Definition pointer := Z.
Definition NULL : pointer := 0.

Definition CURLoption := Z.
Definition CURLINFO := Z.
Definition CURLcode := Z.

(** A value together with the static type of the expression that
    produced it: what a variadic callee has to agree on to read the
    argument back with [va_arg]. *)
Inductive cval : Type :=
| Vint (t : ctype) (n : Z)
| Vptr (t : ctype) (a : pointer).

(** Integer promotion of the type of an argument in variadic position
    (C11 6.5.2.2p6-7): the types narrower than [int] become [int], every
    other type is left alone. *)
Definition integer_promotion (t : ctype) : ctype :=
  match t with
  | Tchar | Tshort => Tint
  | _ => t
  end.

Definition default_argument_promotion (v : cval) : cval :=
  match v with
  | Vint t n => Vint (integer_promotion t) n
  | Vptr t a => Vptr t a
  end.

(** ** Effects of a function body

    The vocabulary is that of a C translation unit, not only of this one:
    calls into libcurl, calls of any other external function, accesses to
    objects with static storage duration, and synchronisation. *)

Inductive effect : Type -> Type :=
| curl_easy_setopt (curl : pointer) (option : CURLoption) (va : list cval)
    : effect CURLcode
| curl_easy_getinfo (curl : pointer) (info : CURLINFO) (va : list cval)
    : effect CURLcode
| extern_call (f : string) (args : list cval) : effect cval
| static_load (x : string) : effect cval
| static_store (x : string) (v : cval) : effect unit
| mutex_lock (m : string) : effect unit
| mutex_unlock (m : string) : effect unit.

Inductive event : Type :=
| Event {X : Type} (e : effect X).

Definition is_delegation (ev : event) : bool :=
  match ev with
  | Event (curl_easy_setopt _ _ _) | Event (curl_easy_getinfo _ _ _) => true
  | _ => false
  end.

Definition is_synchronisation (ev : event) : bool :=
  match ev with
  | Event (mutex_lock _) | Event (mutex_unlock _) => true
  | _ => false
  end.

Definition is_static_access (ev : event) : bool :=
  match ev with
  | Event (static_load _) | Event (static_store _ _) => true
  | _ => false
  end.

(** The variadic arguments a delegated call carries. *)
Definition variadic_args (ev : event) : list cval :=
  match ev with
  | Event (curl_easy_setopt _ _ va) | Event (curl_easy_getinfo _ _ va) => va
  | _ => []
  end.

(** ** Function bodies: finite trees of effects *)

Inductive prog (R : Type) : Type :=
| Ret (r : R)
| Vis {X : Type} (e : effect X) (k : X -> prog R).

Arguments Ret {R} r.
Arguments Vis {R X} e k.

(** [return f(...);] : perform the call and return its value as it is. *)
Definition call {X : Type} (e : effect X) : prog X := Vis e Ret.

(** Arguments in the [...] position of a variadic call. *)
Definition promote_variadic (args : list cval) : list cval :=
  map default_argument_promotion args.

(** ** CurlShims.c *)

Definition curl_easy_setopt_long
  (curl : pointer) (option : CURLoption) (parameter : long) : prog CURLcode :=
  call (curl_easy_setopt curl option (promote_variadic [Vint Tlong parameter])).

Definition curl_easy_setopt_string
  (curl : pointer) (option : CURLoption) (parameter : pointer) : prog CURLcode :=
  call (curl_easy_setopt curl option
          (promote_variadic [Vptr (Tpointer (Tconst Tchar)) parameter])).

Definition curl_easy_setopt_pointer
  (curl : pointer) (option : CURLoption) (parameter : pointer) : prog CURLcode :=
  call (curl_easy_setopt curl option (promote_variadic [Vptr (Tpointer Tvoid) parameter])).

Definition curl_easy_setopt_int64
  (curl : pointer) (option : CURLoption) (parameter : curl_off_t) : prog CURLcode :=
  call (curl_easy_setopt curl option (promote_variadic [Vint Tcurl_off_t parameter])).

Definition curl_easy_setopt_write_callback
  (curl : pointer) (option : CURLoption) (callback : pointer) : prog CURLcode :=
  call (curl_easy_setopt curl option (promote_variadic [Vptr write_fn_t callback])).

Definition curl_easy_setopt_header_callback
  (curl : pointer) (option : CURLoption) (callback : pointer) : prog CURLcode :=
  call (curl_easy_setopt curl option (promote_variadic [Vptr write_fn_t callback])).

Definition curl_easy_setopt_progress_callback
  (curl : pointer) (option : CURLoption) (callback : pointer) : prog CURLcode :=
  call (curl_easy_setopt curl option (promote_variadic [Vptr progress_fn_t callback])).

Definition curl_easy_getinfo_double
  (curl : pointer) (info : CURLINFO) (value : pointer) : prog CURLcode :=
  call (curl_easy_getinfo curl info (promote_variadic [Vptr (Tpointer Tdouble) value])).

Definition curl_easy_getinfo_long
  (curl : pointer) (info : CURLINFO) (value : pointer) : prog CURLcode :=
  call (curl_easy_getinfo curl info (promote_variadic [Vptr (Tpointer Tlong) value])).

(** ** include/CurlShims.h

    A prototype as the header writes it: the name, the result type and the
    named parameters in order. *)

Record declaration : Type := Declaration {
  d_name : string;
  d_result : ctype;
  d_params : list (string * ctype)
}.

Definition CurlShims_h : list declaration :=
  [ Declaration "curl_easy_setopt_long" TCURLcode
      [("curl", Tpointer TCURL); ("option", TCURLoption); ("parameter", Tlong)];
    Declaration "curl_easy_setopt_string" TCURLcode
      [("curl", Tpointer TCURL); ("option", TCURLoption);
       ("parameter", Tpointer (Tconst Tchar))];
    Declaration "curl_easy_setopt_pointer" TCURLcode
      [("curl", Tpointer TCURL); ("option", TCURLoption);
       ("parameter", Tpointer Tvoid)];
    Declaration "curl_easy_setopt_int64" TCURLcode
      [("curl", Tpointer TCURL); ("option", TCURLoption);
       ("parameter", Tcurl_off_t)];
    Declaration "curl_easy_setopt_write_callback" TCURLcode
      [("curl", Tpointer TCURL); ("option", TCURLoption);
       ("callback", write_fn_t)];
    Declaration "curl_easy_setopt_header_callback" TCURLcode
      [("curl", Tpointer TCURL); ("option", TCURLoption);
       ("callback", write_fn_t)];
    Declaration "curl_easy_setopt_progress_callback" TCURLcode
      [("curl", Tpointer TCURL); ("option", TCURLoption);
       ("callback", progress_fn_t)];
    Declaration "curl_easy_getinfo_double" TCURLcode
      [("curl", Tpointer TCURL); ("info", TCURLINFO);
       ("value", Tpointer Tdouble)];
    Declaration "curl_easy_getinfo_long" TCURLcode
      [("curl", Tpointer TCURL); ("info", TCURLINFO);
       ("value", Tpointer Tlong)] ].

(** The functions [CurlShims.c] defines with external linkage, in the order
    of the file.  The file has no [static] function and no object
    definition at all. *)
Definition CurlShims_c : list declaration :=
  [ Declaration "curl_easy_setopt_long" TCURLcode
      [("curl", Tpointer TCURL); ("option", TCURLoption); ("parameter", Tlong)];
    Declaration "curl_easy_setopt_string" TCURLcode
      [("curl", Tpointer TCURL); ("option", TCURLoption);
       ("parameter", Tpointer (Tconst Tchar))];
    Declaration "curl_easy_setopt_pointer" TCURLcode
      [("curl", Tpointer TCURL); ("option", TCURLoption);
       ("parameter", Tpointer Tvoid)];
    Declaration "curl_easy_setopt_int64" TCURLcode
      [("curl", Tpointer TCURL); ("option", TCURLoption);
       ("parameter", Tcurl_off_t)];
    Declaration "curl_easy_setopt_write_callback" TCURLcode
      [("curl", Tpointer TCURL); ("option", TCURLoption);
       ("callback", write_fn_t)];
    Declaration "curl_easy_setopt_header_callback" TCURLcode
      [("curl", Tpointer TCURL); ("option", TCURLoption);
       ("callback", write_fn_t)];
    Declaration "curl_easy_setopt_progress_callback" TCURLcode
      [("curl", Tpointer TCURL); ("option", TCURLoption);
       ("callback", progress_fn_t)];
    Declaration "curl_easy_getinfo_double" TCURLcode
      [("curl", Tpointer TCURL); ("info", TCURLINFO);
       ("value", Tpointer Tdouble)];
    Declaration "curl_easy_getinfo_long" TCURLcode
      [("curl", Tpointer TCURL); ("info", TCURLINFO);
       ("value", Tpointer Tlong)] ].

(** Static objects defined by the translation unit: there is none. *)
Definition CurlShims_c_objects : list (string * ctype) := [].

(** ** Calls into the layer

    One constructor per entry point, carrying the three arguments of the
    call. *)

Inductive invocation : Type :=
| Call_setopt_long (curl : pointer) (option : CURLoption) (parameter : long)
| Call_setopt_string (curl : pointer) (option : CURLoption) (parameter : pointer)
| Call_setopt_pointer (curl : pointer) (option : CURLoption) (parameter : pointer)
| Call_setopt_int64 (curl : pointer) (option : CURLoption) (parameter : curl_off_t)
| Call_setopt_write_callback (curl : pointer) (option : CURLoption) (callback : pointer)
| Call_setopt_header_callback (curl : pointer) (option : CURLoption) (callback : pointer)
| Call_setopt_progress_callback (curl : pointer) (option : CURLoption) (callback : pointer)
| Call_getinfo_double (curl : pointer) (info : CURLINFO) (value : pointer)
| Call_getinfo_long (curl : pointer) (info : CURLINFO) (value : pointer).

Definition invoke (i : invocation) : prog CURLcode :=
  match i with
  | Call_setopt_long c o p => curl_easy_setopt_long c o p
  | Call_setopt_string c o p => curl_easy_setopt_string c o p
  | Call_setopt_pointer c o p => curl_easy_setopt_pointer c o p
  | Call_setopt_int64 c o p => curl_easy_setopt_int64 c o p
  | Call_setopt_write_callback c o f => curl_easy_setopt_write_callback c o f
  | Call_setopt_header_callback c o f => curl_easy_setopt_header_callback c o f
  | Call_setopt_progress_callback c o f => curl_easy_setopt_progress_callback c o f
  | Call_getinfo_double c n v => curl_easy_getinfo_double c n v
  | Call_getinfo_long c n v => curl_easy_getinfo_long c n v
  end.

Definition entry_point (i : invocation) : string :=
  match i with
  | Call_setopt_long _ _ _ => "curl_easy_setopt_long"
  | Call_setopt_string _ _ _ => "curl_easy_setopt_string"
  | Call_setopt_pointer _ _ _ => "curl_easy_setopt_pointer"
  | Call_setopt_int64 _ _ _ => "curl_easy_setopt_int64"
  | Call_setopt_write_callback _ _ _ => "curl_easy_setopt_write_callback"
  | Call_setopt_header_callback _ _ _ => "curl_easy_setopt_header_callback"
  | Call_setopt_progress_callback _ _ _ => "curl_easy_setopt_progress_callback"
  | Call_getinfo_double _ _ _ => "curl_easy_getinfo_double"
  | Call_getinfo_long _ _ _ => "curl_easy_getinfo_long"
  end.

(** The third argument as the caller hands it over: the payload with the
    parameter type of the prototype. *)
Definition received_parameter (i : invocation) : cval :=
  match i with
  | Call_setopt_long _ _ p => Vint Tlong p
  | Call_setopt_string _ _ p => Vptr (Tpointer (Tconst Tchar)) p
  | Call_setopt_pointer _ _ p => Vptr (Tpointer Tvoid) p
  | Call_setopt_int64 _ _ p => Vint Tcurl_off_t p
  | Call_setopt_write_callback _ _ f => Vptr write_fn_t f
  | Call_setopt_header_callback _ _ f => Vptr write_fn_t f
  | Call_setopt_progress_callback _ _ f => Vptr progress_fn_t f
  | Call_getinfo_double _ _ v => Vptr (Tpointer Tdouble) v
  | Call_getinfo_long _ _ v => Vptr (Tpointer Tlong) v
  end.

Definition cval_type (v : cval) : ctype :=
  match v with
  | Vint t _ | Vptr t _ => t
  end.

(** ** The specification's side of the comparison

    "The underlying generic call for the same arguments": the library's
    variadic entry point applied to the handle, the identifier and the one
    value, with nothing done to any of them. *)

Definition generic_setopt
  (curl : pointer) (option : CURLoption) (value : cval) : effect CURLcode :=
  curl_easy_setopt curl option [value].

Definition generic_getinfo
  (curl : pointer) (info : CURLINFO) (destination : cval) : effect CURLcode :=
  curl_easy_getinfo curl info [destination].

Definition generic_call (i : invocation) : effect CURLcode :=
  match i with
  | Call_setopt_long c o _ | Call_setopt_string c o _
  | Call_setopt_pointer c o _ | Call_setopt_int64 c o _
  | Call_setopt_write_callback c o _ | Call_setopt_header_callback c o _
  | Call_setopt_progress_callback c o _ =>
      generic_setopt c o (received_parameter i)
  | Call_getinfo_double c n _ | Call_getinfo_long c n _ =>
      generic_getinfo c n (received_parameter i)
  end.

(** The interface as section 6 of the specification lists it. *)
Inductive operation : Type := Configure | Retrieve.

Inductive value_category : Type :=
| Clong | Cstring | Cpointer | Cint64
| Cwrite_callback | Cheader_callback | Cprogress_callback
| Cdouble_result | Clong_result.

Definition spec_interface : list (operation * value_category) :=
  [ (Configure, Clong); (Configure, Cstring); (Configure, Cpointer);
    (Configure, Cint64);
    (Configure, Cwrite_callback); (Configure, Cheader_callback);
    (Configure, Cprogress_callback);
    (Retrieve, Cdouble_result); (Retrieve, Clong_result) ].

Definition category_type (c : value_category) : ctype :=
  match c with
  | Clong => Tlong
  | Cstring => Tpointer (Tconst Tchar)
  | Cpointer => Tpointer Tvoid
  | Cint64 => Tcurl_off_t
  | Cwrite_callback | Cheader_callback => write_fn_t
  | Cprogress_callback => progress_fn_t
  | Cdouble_result => Tpointer Tdouble
  | Clong_result => Tpointer Tlong
  end.

Definition category_suffix (c : value_category) : string :=
  match c with
  | Clong => "long"
  | Cstring => "string"
  | Cpointer => "pointer"
  | Cint64 => "int64"
  | Cwrite_callback => "write_callback"
  | Cheader_callback => "header_callback"
  | Cprogress_callback => "progress_callback"
  | Cdouble_result => "double"
  | Clong_result => "long"
  end.

Definition is_callback (c : value_category) : bool :=
  match c with
  | Cwrite_callback | Cheader_callback | Cprogress_callback => true
  | _ => false
  end.

(** The fixed-signature entry point that stands for one
    (operation, parameter-type) pair. *)
Definition entry_for (oc : operation * value_category) : declaration :=
  let (op, c) := oc in
  match op with
  | Configure =>
      Declaration ("curl_easy_setopt_" ++ category_suffix c)%string TCURLcode
        [("curl", Tpointer TCURL); ("option", TCURLoption);
         (if is_callback c then "callback" else "parameter", category_type c)]
  | Retrieve =>
      Declaration ("curl_easy_getinfo_" ++ category_suffix c)%string TCURLcode
        [("curl", Tpointer TCURL); ("info", TCURLINFO);
         ("value", category_type c)]
  end.

(** ** Semantics

    A handler gives the meaning of every effect on a state [S]: [h e s x s']
    says that performing [e] in state [s] may answer [x] and leave state
    [s'].  An effect without any answer in a state does not return there
    (the callee loops, blocks or crashes). *)

Definition handler (S : Type) : Type :=
  forall X : Type, effect X -> S -> X -> S -> Prop.

(** [exec h p s tr r s']: run from [s], the body [p] performs exactly the
    effects [tr], in this order, returns [r] and leaves [s']. *)
Fixpoint exec {S R : Type} (h : handler S) (p : prog R)
  (s : S) (tr : list event) (r : R) (s' : S) : Prop :=
  match p with
  | Ret v => tr = [] /\ r = v /\ s' = s
  | Vis e k =>
      exists x s1 tr1,
        h _ e s x s1 /\ exec h (k x) s1 tr1 r s' /\ tr = Event e :: tr1
  end.

Definition returns {S R : Type} (h : handler S) (p : prog R) (s : S) (r : R) : Prop :=
  exists tr s', exec h p s tr r s'.

Definition terminates {S R : Type} (h : handler S) (p : prog R) (s : S) : Prop :=
  exists tr r s', exec h p s tr r s'.

(** The wrapped call on its own. *)
Definition call_returns {S X : Type} (h : handler S) (e : effect X) (s : S) (x : X) : Prop :=
  exists s', h X e s x s'.

Definition call_terminates {S X : Type} (h : handler S) (e : effect X) (s : S) : Prop :=
  exists x s', h X e s x s'.

(** The longest chain of effects a body can perform; a body is a finite
    tree, so there is no loop and no recursion to account for. *)
Inductive effects_at_most {R : Type} : nat -> prog R -> Prop :=
| eam_ret : forall n r, effects_at_most n (Ret r)
| eam_vis : forall n X (e : effect X) k,
    (forall x, effects_at_most n (k x)) -> effects_at_most (S n) (Vis e k).

(** What a caller can read back after a call: the status code and the
    object at the destination. *)
Definition outcome {S V : Type} (load : S -> pointer -> V) (dest : pointer)
  (res : CURLcode * S) : CURLcode * V :=
  (fst res, load (snd res) dest).

(** *** Deterministic handlers, executable *)

Definition fhandler (S : Type) : Type :=
  forall X : Type, effect X -> S -> option (X * S).

Definition graph {S : Type} (f : fhandler S) : handler S :=
  fun X e s x s' => f X e s = Some (x, s').

Fixpoint run {S R : Type} (f : fhandler S) (p : prog R) (s : S)
  : option (list event * R * S) :=
  match p with
  | Ret v => Some ([], v, s)
  | Vis e k =>
      match f _ e s with
      | Some (x, s1) =>
          match run f (k x) s1 with
          | Some (tr1, r, s') => Some (Event e :: tr1, r, s')
          | None => None
          end
      | None => None
      end
  end.

(** *** Sequences of calls: the history of a session *)

Fixpoint exec_seq {S R : Type} (h : handler S) (ps : list (prog R))
  (s : S) (tr : list event) (rs : list R) (s' : S) : Prop :=
  match ps with
  | [] => tr = [] /\ rs = [] /\ s' = s
  | p :: ps' =>
      exists tr1 r s1 tr2 rs',
        exec h p s tr1 r s1 /\ exec_seq h ps' s1 tr2 rs' s' /\
        tr = tr1 ++ tr2 /\ rs = r :: rs'
  end.

Fixpoint calls_seq {S X : Type} (h : handler S) (es : list (effect X))
  (s : S) (xs : list X) (s' : S) : Prop :=
  match es with
  | [] => xs = [] /\ s' = s
  | e :: es' =>
      exists x s1 xs',
        h X e s x s1 /\ calls_seq h es' s1 xs' s' /\ xs = x :: xs'
  end.

(** *** State private to the layer

    [L] is whatever the translation unit could keep to itself between
    calls (objects with static storage duration, locks), [W] is everything
    else: the library's sessions and the caller's memory.  External
    functions act on [W], static accesses and locks on [L]. *)

Definition acts_on_layer {X : Type} (e : effect X) : bool :=
  match e with
  | static_load _ | static_store _ _ | mutex_lock _ | mutex_unlock _ => true
  | _ => false
  end.

Definition layered {L W : Type} (own : handler L) (lib : handler W)
  : handler (L * W) :=
  fun X e s x s' =>
    if acts_on_layer e
    then own X e (fst s) x (fst s') /\ snd s' = snd s
    else lib X e (snd s) x (snd s') /\ fst s' = fst s.

(** *** What a call carries, read back from the event *)







(** *** Sessions, executable

    A list of bodies run one after the other on a deterministic library,
    and the same for bare library calls. *)

Fixpoint run_seq {S R : Type} (f : fhandler S) (ps : list (prog R)) (s : S)
  : option (list event * list R * S) :=
  match ps with
  | [] => Some ([], [], s)
  | p :: ps' =>
      match run f p s with
      | Some (tr1, r, s1) =>
          match run_seq f ps' s1 with
          | Some (tr2, rs, s') => Some (tr1 ++ tr2, r :: rs, s')
          | None => None
          end
      | None => None
      end
  end.

Fixpoint library_seq {S X : Type} (f : fhandler S) (es : list (effect X)) (s : S)
  : option (list X * S) :=
  match es with
  | [] => Some ([], s)
  | e :: es' =>
      match f X e s with
      | Some (x, s1) =>
          match library_seq f es' s1 with
          | Some (xs, s') => Some (x :: xs, s')
          | None => None
          end
      | None => None
      end
  end.

(** ** A test double for the wrapped library

    Used to run the forwarders on concrete inputs.  A session remembers the
    options set on it; a [NULL] handle is refused with
    [CURLE_BAD_FUNCTION_ARGUMENT] (43); an info code is answered by storing
    the number of options set so far at the destination, unless the
    destination is [NULL]. *)

Module Double.

Record world : Type := World {
  options : list (CURLoption * list cval);
  memory : list (pointer * Z)
}.

Definition empty : world := World [] [].

Definition CURLE_OK : CURLcode := 0.
Definition CURLE_BAD_FUNCTION_ARGUMENT : CURLcode := 43.

Definition lib : fhandler world :=
  fun X e =>
    match e in effect T return world -> option (T * world) with
    | curl_easy_setopt curl option va => fun w =>
        if curl =? NULL
        then Some (CURLE_BAD_FUNCTION_ARGUMENT, w)
        else Some (CURLE_OK, World ((option, va) :: options w) (memory w))
    | curl_easy_getinfo curl info va => fun w =>
        match va with
        | [Vptr _ dest] =>
            if (curl =? NULL) || (dest =? NULL)
            then Some (CURLE_BAD_FUNCTION_ARGUMENT, w)
            else Some (CURLE_OK,
                       World (options w)
                         ((dest, Z.of_nat (List.length (options w))) :: memory w))
        | _ => Some (CURLE_BAD_FUNCTION_ARGUMENT, w)
        end
    | _ => fun _ => None
    end.

(** A library whose option setter never returns. *)
Definition hanging : fhandler world :=
  fun X e =>
    match e in effect T return world -> option (T * world) with
    | curl_easy_getinfo _ _ _ => fun w => Some (CURLE_OK, w)
    | _ => fun _ => None
    end.

(** A layer-private store that answers nothing: the layer has none. *)
Definition no_statics : handler nat := fun _ _ _ _ _ => False.

Definition load (w : world) (a : pointer) : option Z :=
  match find (fun c => fst c =? a) (memory w) with
  | Some c => Some (snd c)
  | None => None
  end.

End Double.

(** * Properties *)

(** ** The semantics of a single forwarded call *)

Lemma exec_call {S X : Type} (h : handler S) (e : effect X) s tr (x : X) s' :
  exec h (call e) s tr x s' <-> tr = [Event e] /\ h X e s x s'.
Proof.
  unfold call; simpl; split.
  - intros (y & s1 & tr1 & Hh & (-> & -> & ->) & ->). now split.
  - intros [-> Hh]. exists x, s', []. repeat split; assumption.
Qed.

(** None of the types that cross the boundary is narrower than [int], so
    the default argument promotions leave the third argument alone. *)
Lemma promotion_received_parameter (i : invocation) :
  default_argument_promotion (received_parameter i) = received_parameter i.
Proof. destruct i; reflexivity. Qed.

(** Every entry point is the one generic call, and nothing around it. *)
Lemma invoke_is_call (i : invocation) : invoke i = call (generic_call i).
Proof. destruct i; reflexivity. Qed.

Lemma exec_invoke {S : Type} (h : handler S) (i : invocation) s tr r s' :
  exec h (invoke i) s tr r s' <->
  tr = [Event (generic_call i)] /\ h _ (generic_call i) s r s'.
Proof. rewrite invoke_is_call. apply exec_call. Qed.

Lemma returns_invoke {S : Type} (h : handler S) (i : invocation) s r :
  returns h (invoke i) s r <-> call_returns h (generic_call i) s r.
Proof.
  unfold returns, call_returns; split.
  - intros (tr & s' & H). apply exec_invoke in H. exists s'. tauto.
  - intros (s' & H). exists [Event (generic_call i)], s'.
    apply exec_invoke. now split.
Qed.

Lemma generic_call_is_delegation (i : invocation) :
  is_delegation (Event (generic_call i)) = true.
Proof. destruct i; reflexivity. Qed.

Lemma generic_call_not_on_layer (i : invocation) :
  acts_on_layer (generic_call i) = false.
Proof. destruct i; reflexivity. Qed.

(** The type a parameter is received at is the type the prototype of its
    entry point gives to the third parameter. *)
Lemma received_parameter_prototype (i : invocation) :
  exists d : declaration,
    In d CurlShims_h /\ d_name d = entry_point i /\
    nth_error (map snd (d_params d)) 2 = Some (cval_type (received_parameter i)).
Proof.
  destruct i;
    [ exists (nth 0 CurlShims_h (Declaration "" Tvoid []))
    | exists (nth 1 CurlShims_h (Declaration "" Tvoid []))
    | exists (nth 2 CurlShims_h (Declaration "" Tvoid []))
    | exists (nth 3 CurlShims_h (Declaration "" Tvoid []))
    | exists (nth 4 CurlShims_h (Declaration "" Tvoid []))
    | exists (nth 5 CurlShims_h (Declaration "" Tvoid []))
    | exists (nth 6 CurlShims_h (Declaration "" Tvoid []))
    | exists (nth 7 CurlShims_h (Declaration "" Tvoid []))
    | exists (nth 8 CurlShims_h (Declaration "" Tvoid [])) ];
    simpl; tauto.
Qed.

(** ** The interpreter agrees with the relational semantics *)

Lemma run_exec {S R : Type} (f : fhandler S) (p : prog R) :
  forall s tr r s',
    run f p s = Some (tr, r, s') <-> exec (graph f) p s tr r s'.
Proof.
  induction p as [v | X e k IH]; intros s tr r s'; simpl.
  - split.
    + intros H. injection H as <- <- <-. auto.
    + intros (-> & -> & ->). reflexivity.
  - unfold graph at 1. split.
    + destruct (f X e s) as [[x s1] |] eqn:Hf; [| discriminate].
      destruct (run f (k x) s1) as [[[tr1 r1] s2] |] eqn:Hk; [| discriminate].
      intros H. injection H as <- <- <-.
      exists x, s1, tr1. repeat split; try assumption.
      apply IH. assumption.
    + intros (x & s1 & tr1 & Hf & Hk & ->).
      rewrite Hf. apply IH in Hk. rewrite Hk. reflexivity.
Qed.

Lemma run_invoke {S : Type} (f : fhandler S) (i : invocation) (s : S) :
  run f (invoke i) s =
  match f _ (generic_call i) s with
  | Some (r, s') => Some ([Event (generic_call i)], r, s')
  | None => None
  end.
Proof.
  rewrite invoke_is_call. simpl.
  destruct (f CURLcode (generic_call i) s) as [[r s'] |]; reflexivity.
Qed.

(** ** A history of calls into the layer is the same history of generic calls *)

Lemma exec_seq_invoke {S : Type} (h : handler S) (hist : list invocation) :
  forall s tr rs s',
    exec_seq h (map invoke hist) s tr rs s' <->
    tr = map (fun i => Event (generic_call i)) hist /\
    calls_seq h (map generic_call hist) s rs s'.
Proof.
  induction hist as [| i hist IH]; intros s tr rs s'; simpl.
  - tauto.
  - split.
    + intros (tr1 & r & s1 & tr2 & rs' & H1 & H2 & -> & ->).
      apply exec_invoke in H1. destruct H1 as [-> H1].
      apply IH in H2. destruct H2 as [-> H2].
      split; [reflexivity |].
      exists r, s1, rs'. auto.
    + intros [-> (r & s1 & rs' & H1 & H2 & ->)].
      exists [Event (generic_call i)], r, s1,
        (map (fun i => Event (generic_call i)) hist), rs'.
      repeat split; try reflexivity.
      * apply exec_invoke. now split.
      * apply IH. now split.
Qed.

(** ** Runs on the test double *)

Example run_setopt_long :
  run Double.lib (curl_easy_setopt_long 4096 13 30) Double.empty =
  Some ([Event (curl_easy_setopt 4096 13 [Vint Tlong 30])], 0,
        Double.World [(13, [Vint Tlong 30])] []).
Proof. reflexivity. Qed.

Example run_setopt_string_null_handle :
  run Double.lib (curl_easy_setopt_string NULL 10002 8192) Double.empty =
  Some ([Event (curl_easy_setopt 0 10002 [Vptr (Tpointer (Tconst Tchar)) 8192])],
        43, Double.empty).
Proof. reflexivity. Qed.

Example run_getinfo_long_stores :
  match run Double.lib (curl_easy_getinfo_long 4096 2097154 512)
          (Double.World [(13, [Vint Tlong 30])] []) with
  | Some (tr, r, w) =>
      tr = [Event (curl_easy_getinfo 4096 2097154 [Vptr (Tpointer Tlong) 512])] /\
      r = 0 /\ Double.load w 512 = Some 1
  | None => False
  end.
Proof. repeat split. Qed.

Example run_setopt_hanging :
  run Double.hanging (curl_easy_setopt_int64 4096 30115 (-1)) Double.empty = None.
Proof. reflexivity. Qed.

(** ** The claims *)

(** C1.  Each of the seven option-setting forwarders returns exactly the
    value that the generic call [curl_easy_setopt] returns for the same
    handle, option identifier and value: whatever the library does, a status
    code is a possible result of the forwarder if and only if it is a
    possible result of the generic call in the same state. *)
Theorem setopt_forwarders_return_generic_result :
  forall (S : Type) (h : handler S) (s : S)
         (curl : pointer) (option : CURLoption) (r : CURLcode),
    (forall parameter : long,
        returns h (curl_easy_setopt_long curl option parameter) s r <->
        call_returns h (generic_setopt curl option (Vint Tlong parameter)) s r) /\
    (forall parameter : pointer,
        returns h (curl_easy_setopt_string curl option parameter) s r <->
        call_returns h
          (generic_setopt curl option (Vptr (Tpointer (Tconst Tchar)) parameter)) s r) /\
    (forall parameter : pointer,
        returns h (curl_easy_setopt_pointer curl option parameter) s r <->
        call_returns h
          (generic_setopt curl option (Vptr (Tpointer Tvoid) parameter)) s r) /\
    (forall parameter : curl_off_t,
        returns h (curl_easy_setopt_int64 curl option parameter) s r <->
        call_returns h (generic_setopt curl option (Vint Tcurl_off_t parameter)) s r) /\
    (forall callback : pointer,
        returns h (curl_easy_setopt_write_callback curl option callback) s r <->
        call_returns h (generic_setopt curl option (Vptr write_fn_t callback)) s r) /\
    (forall callback : pointer,
        returns h (curl_easy_setopt_header_callback curl option callback) s r <->
        call_returns h (generic_setopt curl option (Vptr write_fn_t callback)) s r) /\
    (forall callback : pointer,
        returns h (curl_easy_setopt_progress_callback curl option callback) s r <->
        call_returns h (generic_setopt curl option (Vptr progress_fn_t callback)) s r).
Proof.
  intros S h s curl option r.
  split; [| split; [| split; [| split; [| split; [| split]]]]]; intros x.
  - exact (returns_invoke h (Call_setopt_long curl option x) s r).
  - exact (returns_invoke h (Call_setopt_string curl option x) s r).
  - exact (returns_invoke h (Call_setopt_pointer curl option x) s r).
  - exact (returns_invoke h (Call_setopt_int64 curl option x) s r).
  - exact (returns_invoke h (Call_setopt_write_callback curl option x) s r).
  - exact (returns_invoke h (Call_setopt_header_callback curl option x) s r).
  - exact (returns_invoke h (Call_setopt_progress_callback curl option x) s r).
Qed.

(** C2.  The two info-retrieval forwarders hand the destination pointer to
    [curl_easy_getinfo] as it is (the one call performed carries the address
    received), return exactly the status code of that call, and leave
    exactly the state that call leaves, so that the object at the
    destination holds what the underlying call stored there. *)
Theorem getinfo_forwarders_pass_destination_and_status :
  forall (S : Type) (h : handler S) (s : S)
         (curl : pointer) (info : CURLINFO) (value : pointer),
    (forall tr r s',
        exec h (curl_easy_getinfo_double curl info value) s tr r s' <->
        tr = [Event (curl_easy_getinfo curl info [Vptr (Tpointer Tdouble) value])] /\
        h _ (generic_getinfo curl info (Vptr (Tpointer Tdouble) value)) s r s') /\
    (forall tr r s',
        exec h (curl_easy_getinfo_long curl info value) s tr r s' <->
        tr = [Event (curl_easy_getinfo curl info [Vptr (Tpointer Tlong) value])] /\
        h _ (generic_getinfo curl info (Vptr (Tpointer Tlong) value)) s r s') /\
    (forall (f : fhandler S) (V : Type) (load : S -> pointer -> V),
        option_map (fun x => outcome load value (snd (fst x), snd x))
          (run f (curl_easy_getinfo_double curl info value) s) =
        option_map (outcome load value)
          (f _ (generic_getinfo curl info (Vptr (Tpointer Tdouble) value)) s) /\
        option_map (fun x => outcome load value (snd (fst x), snd x))
          (run f (curl_easy_getinfo_long curl info value) s) =
        option_map (outcome load value)
          (f _ (generic_getinfo curl info (Vptr (Tpointer Tlong) value)) s)).
Proof.
  intros S h s curl info value.
  split; [| split].
  - intros tr r s'.
    exact (exec_invoke h (Call_getinfo_double curl info value) s tr r s').
  - intros tr r s'.
    exact (exec_invoke h (Call_getinfo_long curl info value) s tr r s').
  - intros f V load. split.
    + change (curl_easy_getinfo_double curl info value)
        with (invoke (Call_getinfo_double curl info value)).
      rewrite run_invoke. simpl.
      destruct (f CURLcode _ s) as [[r s'] |]; reflexivity.
    + change (curl_easy_getinfo_long curl info value)
        with (invoke (Call_getinfo_long curl info value)).
      rewrite run_invoke. simpl.
      destruct (f CURLcode _ s) as [[r s'] |]; reflexivity.
Qed.

(** C3.  Whatever the entry point and the input, a run performs one call
    of the library's variadic function whose variadic part is the parameter
    received, with its type and its payload: the body is that call and
    nothing before it (no check), and the promotions of a variadic call
    leave the value as it is (no conversion). *)
Theorem forwarded_value_is_received_value :
  forall (i : invocation) (S : Type) (h : handler S) (s : S)
         (tr : list event) (r : CURLcode) (s' : S),
    exec h (invoke i) s tr r s' ->
    exists e : effect CURLcode,
      invoke i = call e /\
      tr = [Event e] /\
      is_delegation (Event e) = true /\
      variadic_args (Event e) = [received_parameter i] /\
      promote_variadic [received_parameter i] = [received_parameter i].
Proof.
  intros i S h s tr r s' H.
  apply exec_invoke in H. destruct H as [-> _].
  exists (generic_call i).
  split; [apply invoke_is_call |].
  split; [reflexivity |].
  split; [apply generic_call_is_delegation |].
  split.
  - destruct i; reflexivity.
  - simpl. now rewrite promotion_received_parameter.
Qed.

Lemma forwarded_value_is_received_value_witness :
  exists e : effect CURLcode,
    invoke (Call_setopt_string NULL 10002 8192) = call e /\
    [Event (curl_easy_setopt 0 10002 [Vptr (Tpointer (Tconst Tchar)) 8192])]
      = [Event e] /\
    is_delegation (Event e) = true /\
    variadic_args (Event e) =
      [received_parameter (Call_setopt_string NULL 10002 8192)] /\
    promote_variadic [received_parameter (Call_setopt_string NULL 10002 8192)] =
      [received_parameter (Call_setopt_string NULL 10002 8192)].
Proof.
  apply (forwarded_value_is_received_value
           (Call_setopt_string NULL 10002 8192) Double.world
           (graph Double.lib) Double.empty
           [Event (curl_easy_setopt 0 10002 [Vptr (Tpointer (Tconst Tchar)) 8192])]
           43 Double.empty).
  simpl. exists 43, Double.empty, []. repeat split.
Defined.

(** C4.  The status code handed to the caller is the one the delegated
    call produced, for every entry point and every code, failure or success:
    a code is returned by the forwarder exactly when the delegated call
    returns it, and a run that returns it made that call once and did
    nothing else (no second attempt, no substitute code). *)
Theorem status_code_propagated_verbatim :
  forall (i : invocation) (S : Type) (h : handler S) (s : S) (r : CURLcode),
    (returns h (invoke i) s r <-> call_returns h (generic_call i) s r) /\
    (forall tr s',
        exec h (invoke i) s tr r s' <->
        tr = [Event (generic_call i)] /\ h _ (generic_call i) s r s') /\
    (forall (f : fhandler S),
        option_map (fun x => snd (fst x)) (run f (invoke i) s) =
        option_map fst (f _ (generic_call i) s)).
Proof.
  intros i S h s r. split; [| split].
  - apply returns_invoke.
  - intros tr s'. apply exec_invoke.
  - intros f. rewrite run_invoke.
    destruct (f CURLcode (generic_call i) s) as [[c s'] |]; reflexivity.
Qed.

(** C5.  The only effect of a call into the layer is the one delegated
    library call.  With the state split into a part [L] private to the
    layer and the rest [W], a run is exactly that call on [W]: [L] comes
    out as it went in, and neither the initial [L] nor the meaning given to
    accesses to it has any part in the trace, the result or the new [W]. *)
Theorem only_effect_is_the_delegated_call :
  forall (i : invocation) (L W : Type) (own : handler L) (lib : handler W)
         (l : L) (w : W) (tr : list event) (r : CURLcode) (l' : L) (w' : W),
    exec (layered own lib) (invoke i) (l, w) tr r (l', w') <->
    tr = [Event (generic_call i)] /\
    lib _ (generic_call i) w r w' /\
    l' = l.
Proof.
  intros i L W own lib l w tr r l' w'.
  rewrite exec_invoke. unfold layered.
  rewrite generic_call_not_on_layer. simpl. tauto.
Qed.

(** C6.  The header declares one function for each of the nine
    (operation, parameter-type) pairs of the specification and nothing
    else, the source file defines those nine and nothing else, and the
    nine have distinct names. *)
Theorem exported_interface_is_nine_entry_points :
  CurlShims_h = map entry_for spec_interface /\
  CurlShims_c = CurlShims_h /\
  CurlShims_c_objects = [] /\
  List.length CurlShims_h = 9%nat /\
  NoDup spec_interface /\
  NoDup (map d_name CurlShims_h) /\
  (forall i : invocation, In (entry_point i) (map d_name CurlShims_h)) /\
  (forall name : string,
      In name (map d_name CurlShims_h) ->
      exists i : invocation, entry_point i = name).
Proof.
  split; [reflexivity |].
  split; [reflexivity |].
  split; [reflexivity |].
  split; [reflexivity |].
  split.
  { unfold spec_interface.
    repeat (constructor; [simpl; intuition discriminate |]). constructor. }
  split.
  { simpl.
    repeat (constructor; [simpl; intuition discriminate |]). constructor. }
  split.
  - intros i. destruct i; simpl; tauto.
  - simpl. intros name H.
    repeat (destruct H as [<- | H]);
      [ exists (Call_setopt_long 0 0 0)
      | exists (Call_setopt_string 0 0 0)
      | exists (Call_setopt_pointer 0 0 0)
      | exists (Call_setopt_int64 0 0 0)
      | exists (Call_setopt_write_callback 0 0 0)
      | exists (Call_setopt_header_callback 0 0 0)
      | exists (Call_setopt_progress_callback 0 0 0)
      | exists (Call_getinfo_double 0 0 0)
      | exists (Call_getinfo_long 0 0 0)
      | contradiction ]; reflexivity.
Qed.

(** C7.  Two runs of the same call, in any two states and under any two
    semantics of everything else (so after any two histories and with any
    hidden state), in which the wrapped library answers the delegated call
    alike: both runs perform the same delegation and return the same
    results. *)
Theorem two_runs_same_delegation_same_result :
  forall (i : invocation) (S1 S2 : Type) (h1 : handler S1) (h2 : handler S2)
         (s1 : S1) (s2 : S2),
    (forall r, call_returns h1 (generic_call i) s1 r <->
               call_returns h2 (generic_call i) s2 r) ->
    (forall r, returns h1 (invoke i) s1 r <-> returns h2 (invoke i) s2 r) /\
    (forall tr1 r1 s1' tr2 r2 s2',
        exec h1 (invoke i) s1 tr1 r1 s1' ->
        exec h2 (invoke i) s2 tr2 r2 s2' ->
        tr1 = tr2 /\ tr1 = [Event (generic_call i)]).
Proof.
  intros i S1 S2 h1 h2 s1 s2 Hlib. split.
  - intros r. rewrite !returns_invoke. apply Hlib.
  - intros tr1 r1 s1' tr2 r2 s2' H1 H2.
    apply exec_invoke in H1. apply exec_invoke in H2.
    destruct H1 as [-> _]. destruct H2 as [-> _]. now split.
Qed.

Lemma two_runs_same_delegation_same_result_witness :
  (forall r,
      returns (graph Double.lib) (invoke (Call_setopt_long 4096 13 30))
        Double.empty r <->
      returns (layered Double.no_statics (graph Double.lib))
        (invoke (Call_setopt_long 4096 13 30))
        (7%nat, Double.World [(42, [Vint Tlong 1])] []) r) /\
  (forall tr1 r1 s1' tr2 r2 s2',
      exec (graph Double.lib) (invoke (Call_setopt_long 4096 13 30))
        Double.empty tr1 r1 s1' ->
      exec (layered Double.no_statics (graph Double.lib))
        (invoke (Call_setopt_long 4096 13 30))
        (7%nat, Double.World [(42, [Vint Tlong 1])] []) tr2 r2 s2' ->
      tr1 = tr2 /\
      tr1 = [Event (generic_call (Call_setopt_long 4096 13 30))]).
Proof.
  apply (two_runs_same_delegation_same_result
           (Call_setopt_long 4096 13 30) Double.world (nat * Double.world)
           (graph Double.lib) (layered Double.no_statics (graph Double.lib))
           Double.empty (7%nat, Double.World [(42, [Vint Tlong 1])] [])).
  intros r. unfold call_returns, layered, graph. simpl. split.
  - intros [s' H]. injection H as <- <-.
    exists (7%nat, Double.World [(13, [Vint Tlong 30]); (42, [Vint Tlong 1])] []).
    split; reflexivity.
  - intros [s' [H _]]. injection H as <- _.
    exists (Double.World [(13, [Vint Tlong 30])] []). reflexivity.
Defined.

(** C8.  Over any history of calls into the layer, under any semantics,
    the effects performed are the delegated library calls, one per call and
    in order: no lock is taken or released and no object with static
    storage duration is read or written, the translation unit defining no
    such object in the first place. *)
Theorem no_synchronisation_no_shared_state :
  forall (hist : list invocation) (S : Type) (h : handler S) (s : S)
         (tr : list event) (rs : list CURLcode) (s' : S),
    exec_seq h (map invoke hist) s tr rs s' ->
    CurlShims_c_objects = [] /\
    List.length tr = List.length hist /\
    Forall (fun ev => is_synchronisation ev = false /\
                      is_static_access ev = false /\
                      is_delegation ev = true) tr.
Proof.
  intros hist S h s tr rs s' H.
  apply exec_seq_invoke in H. destruct H as [-> _].
  split; [reflexivity |].
  split; [apply length_map |].
  apply Forall_forall. intros ev Hin.
  apply in_map_iff in Hin. destruct Hin as (i & <- & _).
  destruct i; repeat split.
Qed.

Lemma no_synchronisation_no_shared_state_witness :
  CurlShims_c_objects = [] /\
  List.length
    [Event (curl_easy_setopt 4096 13 [Vint Tlong 30]);
     Event (curl_easy_getinfo 4096 2097154 [Vptr (Tpointer Tlong) 512])] =
  List.length [Call_setopt_long 4096 13 30; Call_getinfo_long 4096 2097154 512] /\
  Forall (fun ev => is_synchronisation ev = false /\
                    is_static_access ev = false /\
                    is_delegation ev = true)
    [Event (curl_easy_setopt 4096 13 [Vint Tlong 30]);
     Event (curl_easy_getinfo 4096 2097154 [Vptr (Tpointer Tlong) 512])].
Proof.
  apply (no_synchronisation_no_shared_state
           [Call_setopt_long 4096 13 30; Call_getinfo_long 4096 2097154 512]
           Double.world (graph Double.lib) Double.empty
           [Event (curl_easy_setopt 4096 13 [Vint Tlong 30]);
            Event (curl_easy_getinfo 4096 2097154 [Vptr (Tpointer Tlong) 512])]
           [0; 0]
           (Double.World [(13, [Vint Tlong 30])] [(512, 1)])).
  simpl.
  exists [Event (curl_easy_setopt 4096 13 [Vint Tlong 30])], 0,
    (Double.World [(13, [Vint Tlong 30])] []),
    [Event (curl_easy_getinfo 4096 2097154 [Vptr (Tpointer Tlong) 512])], [0].
  split.
  { exists 0, (Double.World [(13, [Vint Tlong 30])] []), []. repeat split. }
  split; [| split; reflexivity].
  exists [Event (curl_easy_getinfo 4096 2097154 [Vptr (Tpointer Tlong) 512])], 0,
    (Double.World [(13, [Vint Tlong 30])] [(512, 1)]), [], [].
  split.
  { exists 0, (Double.World [(13, [Vint Tlong 30])] [(512, 1)]), [].
    repeat split. }
  repeat split.
Defined.

(** C9.  The data-write and the header-write registration functions are
    the same function under two names: equal bodies for all arguments, hence
    the same runs under every semantics, and prototypes that differ in the
    name only. *)
Theorem write_and_header_callback_coincide :
  (forall (curl : pointer) (option : CURLoption) (callback : pointer),
      curl_easy_setopt_write_callback curl option callback =
      curl_easy_setopt_header_callback curl option callback) /\
  (forall (S : Type) (h : handler S) (s : S)
          (curl : pointer) (option : CURLoption) (callback : pointer)
          (tr : list event) (r : CURLcode) (s' : S),
      exec h (curl_easy_setopt_write_callback curl option callback) s tr r s' <->
      exec h (curl_easy_setopt_header_callback curl option callback) s tr r s') /\
  (forall (S : Type) (f : fhandler S) (s : S)
          (curl : pointer) (option : CURLoption) (callback : pointer),
      run f (curl_easy_setopt_write_callback curl option callback) s =
      run f (curl_easy_setopt_header_callback curl option callback) s) /\
  (exists dw dh,
      nth_error CurlShims_h 4 = Some dw /\ nth_error CurlShims_h 5 = Some dh /\
      d_name dw = "curl_easy_setopt_write_callback" /\
      d_name dh = "curl_easy_setopt_header_callback" /\
      d_result dw = d_result dh /\ d_params dw = d_params dh).
Proof.
  split; [reflexivity |].
  split; [intros; reflexivity |].
  split; [reflexivity |].
  eexists _, _.
  split; [reflexivity |]. split; [reflexivity |]. repeat split.
Qed.

(** C10.  Every forwarder is a body of at most one effect (no loop, no
    recursion), and for every input, null handle, null string, null pointer,
    null callback and null destination included, it returns whenever the
    one wrapped call it makes returns. *)
Theorem forwarders_terminate_when_wrapped_call_does :
  forall (i : invocation) (S : Type) (h : handler S) (s : S),
    call_terminates h (generic_call i) s ->
    terminates h (invoke i) s /\ effects_at_most 1 (invoke i).
Proof.
  intros i S h s (r & s' & H). split.
  - exists [Event (generic_call i)], r, s'. apply exec_invoke. now split.
  - rewrite invoke_is_call. unfold call.
    apply eam_vis. intros x. apply eam_ret.
Qed.

Lemma forwarders_terminate_when_wrapped_call_does_witness :
  terminates (graph Double.lib) (invoke (Call_getinfo_long NULL 0 NULL))
    Double.empty /\
  effects_at_most 1 (invoke (Call_getinfo_long NULL 0 NULL)).
Proof.
  apply (forwarders_terminate_when_wrapped_call_does
           (Call_getinfo_long NULL 0 NULL) Double.world
           (graph Double.lib) Double.empty).
  exists 43, Double.empty. reflexivity.
Defined.

(** * Further properties of the forwarders *)

Lemma calls_seq_layered {L W : Type} (own : handler L) (lib : handler W)
  (hist : list invocation) :
  forall l w rs l' w',
    calls_seq (layered own lib) (map generic_call hist) (l, w) rs (l', w') <->
    calls_seq lib (map generic_call hist) w rs w' /\ l' = l.
Proof.
  induction hist as [| i hist IH]; intros l w rs l' w'; simpl.
  - split.
    + intros [-> H]. injection H as -> ->. auto.
    + intros [[-> ->] ->]. auto.
  - split.
    + intros (r & [l1 w1] & rs' & H1 & H2 & ->).
      unfold layered in H1. rewrite generic_call_not_on_layer in H1.
      simpl in H1. destruct H1 as [H1 ->].
      apply IH in H2. destruct H2 as [H2 ->].
      split; [| reflexivity]. exists r, w1, rs'. auto.
    + intros [(r & w1 & rs' & H1 & H2 & ->) ->].
      exists r, (l, w1), rs'. repeat split.
      * unfold layered. rewrite generic_call_not_on_layer. simpl. auto.
      * apply IH. auto.
Qed.

(** X1.  A session through the layer is the same session on the library:
    for any list of calls into the layer, run in order on a deterministic
    library, the status codes and the final state are those of the
    corresponding generic calls made directly in the same order, the calls
    performed are those generic calls, one per entry in order, and the
    session stops without a result exactly where the library does. *)
Theorem session_through_layer_is_session_on_library :
  forall (hist : list invocation) (S : Type) (f : fhandler S) (s : S),
    run_seq f (map invoke hist) s =
    match library_seq f (map generic_call hist) s with
    | Some (rs, s') => Some (map (fun i => Event (generic_call i)) hist, rs, s')
    | None => None
    end.
Proof.
  induction hist as [| i hist IH]; intros S f s; simpl.
  - reflexivity.
  - rewrite run_invoke.
    destruct (f CURLcode (generic_call i) s) as [[r s1] |]; [| reflexivity].
    rewrite IH.
    destruct (library_seq f (map generic_call hist) s1) as [[rs s'] |];
      reflexivity.
Qed.

(** X2.  No session changes state private to the layer: with the state
    split into a private part and the rest, any list of calls into the layer
    leaves the private part as it found it, whatever the meaning of accesses
    to it, and acts on the rest as the list of generic calls does. *)
Theorem session_keeps_private_state :
  forall (hist : list invocation) (L W : Type)
         (own : handler L) (lib : handler W)
         (l : L) (w : W) (tr : list event) (rs : list CURLcode)
         (l' : L) (w' : W),
    exec_seq (layered own lib) (map invoke hist) (l, w) tr rs (l', w') <->
    tr = map (fun i => Event (generic_call i)) hist /\
    calls_seq lib (map generic_call hist) w rs w' /\
    l' = l.
Proof.
  intros hist L W own lib l w tr rs l' w'.
  rewrite exec_seq_invoke, calls_seq_layered. tauto.
Qed.



Lemma calls_seq_invariant {S : Type} (h : handler S) (Inv : S -> Prop)
  (hist : list invocation) :
  (forall i, In i hist ->
     forall s r s', Inv s -> h _ (generic_call i) s r s' -> Inv s') ->
  forall s rs s',
    Inv s -> calls_seq h (map generic_call hist) s rs s' -> Inv s'.
Proof.
  induction hist as [| i hist IH]; intros Hstep s rs s' Hs H; simpl in H.
  - destruct H as [_ ->]. assumption.
  - destruct H as (r & s1 & rs' & H1 & H2 & _).
    apply (IH (fun k Hk => Hstep k (or_intror Hk)) s1 rs' s');
      [| assumption].
    apply (Hstep i (or_introl eq_refl) s r s1); assumption.
Qed.

(** X4.  The layer cannot break what the library keeps.  A property of
    the state that every delegated call of a session preserves, and that
    holds when the session starts, holds when the session ends. *)
Theorem session_preserves_library_invariants :
  forall (hist : list invocation) (S : Type) (h : handler S) (Inv : S -> Prop)
         (s : S) (tr : list event) (rs : list CURLcode) (s' : S),
    (forall i, In i hist ->
       forall s0 r s1, Inv s0 -> h _ (generic_call i) s0 r s1 -> Inv s1) ->
    Inv s ->
    exec_seq h (map invoke hist) s tr rs s' ->
    Inv s'.
Proof.
  intros hist S h Inv s tr rs s' Hstep Hs H.
  apply exec_seq_invoke in H. destruct H as [_ H].
  exact (calls_seq_invariant h Inv hist Hstep s rs s' Hs H).
Qed.

Lemma session_preserves_library_invariants_witness :
  Double.memory (Double.World [(13, [Vint Tlong 30])] []) = [].
Proof.
  apply (session_preserves_library_invariants
           [Call_setopt_long 4096 13 30; Call_setopt_string NULL 10002 8192]
           Double.world (graph Double.lib)
           (fun w => Double.memory w = [])
           Double.empty
           [Event (curl_easy_setopt 4096 13 [Vint Tlong 30]);
            Event (curl_easy_setopt 0 10002
                     [Vptr (Tpointer (Tconst Tchar)) 8192])]
           [0; 43]
           (Double.World [(13, [Vint Tlong 30])] [])).
  - intros i [<- | [<- | []]] s0 r s1 Hinv H;
      unfold graph in H; simpl in H; injection H as _ <-; exact Hinv.
  - reflexivity.
  - simpl.
    exists [Event (curl_easy_setopt 4096 13 [Vint Tlong 30])], 0,
      (Double.World [(13, [Vint Tlong 30])] []),
      [Event (curl_easy_setopt 0 10002
                [Vptr (Tpointer (Tconst Tchar)) 8192])], [43].
    split.
    { exists 0, (Double.World [(13, [Vint Tlong 30])] []), []. repeat split. }
    split; [| split; reflexivity].
    exists [Event (curl_easy_setopt 0 10002
                     [Vptr (Tpointer (Tconst Tchar)) 8192])], 43,
      (Double.World [(13, [Vint Tlong 30])] []), [], [].
    split.
    { exists 43, (Double.World [(13, [Vint Tlong 30])] []), []. repeat split. }
    repeat split.
Defined.
